(** * analyze_audio.py: acoustic feature extraction, verified wiring

    A shallow embedding of [src/bin/analyze_audio.py].  The script is a thin
    driver around librosa and numpy: it decodes one audio file, asks the
    library for five per-frame measures, reduces them with [np.mean] and
    [np.std], and prints the resulting dictionary as one JSON line.

    The libraries are not part of the repository.  They enter the model as an
    interface ([Librosa]) whose operations may raise and may print
    warnings on standard error; the script itself
    (argument handling, the [try]/[except] boundary, the voiced-frame filter,
    the 0.0 defaults, the order of the dictionary, the JSON text) is
    translated definition by definition.  Python floats are IEEE binary64
    numbers, modelled by Rocq's primitive floats. *)

From Stdlib Require Import String Ascii List ZArith Lia Bool.
From Stdlib Require Import Strings.Byte.
From Stdlib Require Import DecimalString.
From Stdlib Require DecimalNat.
From Stdlib Require Import Floats.PrimFloat.
Import ListNotations.

Local Open Scope list_scope.
Local Open Scope string_scope.

(* ------------------------------------------------------------------ *)
(** ** Characters and text *)

Definition newline_char : ascii := ascii_of_nat 10.
Definition dquote_char : ascii := ascii_of_nat 34.

Definition nl : string := String newline_char EmptyString.
Definition dquote : string := String dquote_char EmptyString.

(** [has_newline s]: some character of [s] is a line feed. *)
Fixpoint has_newline (s : string) : bool :=
  match s with
  | EmptyString => false
  | String c s' => Ascii.eqb c newline_char || has_newline s'
  end.

(** Number of line feeds in [s]: the number of lines a stream holds when
    every write ends with one. *)
Fixpoint count_newlines (s : string) : nat :=
  match s with
  | EmptyString => 0
  | String c s' =>
      (if Ascii.eqb c newline_char then 1 else 0) + count_newlines s'
  end.

(** A stream content that is exactly one line: some text free of line feeds,
    then the terminating line feed. *)
Definition single_line (out : string) : Prop :=
  exists l, out = l ++ nl /\ has_newline l = false.

(** [contains x s]: [x] occurs in [s] as a contiguous piece. *)
Definition contains (x s : string) : Prop :=
  exists pre post, s = pre ++ x ++ post.

(** Python's [str.join]. *)
Fixpoint join (sep : string) (parts : list string) : string :=
  match parts with
  | [] => EmptyString
  | [p] => p
  | p :: rest => p ++ sep ++ join sep rest
  end.

(** Decimal text of a natural number, as [str(n)] prints it. *)
Definition str_of_nat (n : nat) : string :=
  NilZero.string_of_uint (Nat.to_uint n).

(* ------------------------------------------------------------------ *)
(** ** Python values that reach the output *)

(** The feature dictionary holds floats and one list of floats.  A [dict]
    keeps insertion order, which decides the order of the keys in the JSON
    text, so it is an association list. *)
Inductive pyval : Type :=
| PyFloat (x : float)
| PyList (xs : list float).

Definition dict : Type := list (string * pyval).

Fixpoint lookup (k : string) (d : dict) : option pyval :=
  match d with
  | [] => None
  | (k', v) :: d' => if String.eqb k k' then Some v else lookup k d'
  end.


(** A float that is neither a NaN nor an infinity: the floats JSON has a
    spelling for. *)
Definition finite (x : float) : bool :=
  negb (PrimFloat.is_nan x)
  && negb (PrimFloat.eqb x infinity)
  && negb (PrimFloat.eqb x neg_infinity).





(* ------------------------------------------------------------------ *)
(** ** Exceptions, results, and the process state *)

(** An exception is represented by its message, the text [str(e)] that the
    handler interpolates. *)
Definition exn : Type := string.

(** Result of a library call: a value or a raised [Exception]. *)
Inductive result (A : Type) : Type :=
| Ok (a : A)
| Err (e : exn).
Arguments Ok {A} a.
Arguments Err {A} e.

(** Arguments of one [librosa.load] call, recorded when the file is opened. *)
Record load_call : Type := LoadCall {
  lc_path : string;
  lc_sr : option Z;
  lc_duration : option float
}.

(** What the process has done so far: the two output streams and the audio
    files it asked the decoder to open. *)
Record process : Type := Process {
  stdout : string;
  stderr : string;
  loads : list load_call
}.

Definition start : process := Process EmptyString EmptyString [].

(** How a Python computation ends: with a value, with an [Exception], or
    with [SystemExit] (raised by [sys.exit], and not an [Exception]). *)
Inductive outcome (A : Type) : Type :=
| Ret (a : A)
| Raise (e : exn)
| Exit (code : Z).
Arguments Ret {A} a.
Arguments Raise {A} e.
Arguments Exit {A} code.

Definition M (A : Type) : Type := process -> outcome A * process.

Definition ret {A} (a : A) : M A := fun p => (Ret a, p).

Definition bind {A B} (m : M A) (k : A -> M B) : M B :=
  fun p =>
    match m p with
    | (Ret a, p') => k a p'
    | (Raise e, p') => (Raise e, p')
    | (Exit c, p') => (Exit c, p')
    end.

Declare Scope py_scope.
Delimit Scope py_scope with py.
Notation "x <- m ;; k" := (bind m (fun x => k))
  (at level 61, m at next level, right associativity) : py_scope.
Notation "' pat <- m ;; k" := (bind m (fun x => match x with pat => k end))
  (at level 61, pat pattern, m at next level, right associativity) : py_scope.
Notation "m ;;; k" := (bind m (fun _ => k))
  (at level 61, right associativity) : py_scope.

(** A library call inside the script: its exception becomes a raised one. *)
Definition lift {A} (r : result A) : M A :=
  fun p => match r with Ok a => (Ret a, p) | Err e => (Raise e, p) end.

(** [try: body except Exception as e: handler e].  [SystemExit] is not an
    [Exception] and passes through. *)
Definition try_except {A} (body : M A) (handler : exn -> M A) : M A :=
  fun p =>
    match body p with
    | (Raise e, p') => handler e p'
    | other => other
    end.

(** [print(s)] and [print(s, file=sys.stderr)]: the text and a line feed. *)
Definition print (s : string) : M unit :=
  fun p => (Ret tt, Process (stdout p ++ s ++ nl) (stderr p) (loads p)).

Definition print_stderr (s : string) : M unit :=
  fun p => (Ret tt, Process (stdout p) (stderr p ++ s ++ nl) (loads p)).

(** [sys.exit(code)]. *)
Definition sys_exit {A} (code : Z) : M A := fun p => (Exit code, p).

(* ------------------------------------------------------------------ *)
(** ** The libraries the script calls *)

(** The file system the process runs in: the bytes stored under a path, if
    any.  The script never writes to it. *)
Definition filesystem : Type := string -> option (list byte).

(** librosa, numpy and the float printer of the interpreter.  Every librosa
    entry point may raise.  [librosa_load] receives the bytes found under
    the path (or [None]) together with the call's arguments; the other
    operations are functions of the arrays they are given.  One-dimensional
    arrays are lists, two-dimensional arrays are lists of rows.  [pyin]
    takes the sampling rate it assumes as its last argument.

    The script leaves Python's warnings enabled (source lines 29-30), and
    the libraries print warnings on standard error while they work, for
    instance before falling back to a second decoder or when a signal is
    shorter than an analysis window.  [library_stderr] is that text: all
    that librosa and numpy print while the [try] block runs on a file, a
    function of the stored bytes and of the arguments of the load call as
    the results are. *)
Class Librosa : Type := {
  librosa_load : option (list byte) -> load_call -> result (list float * Z);
  get_duration : list float -> Z -> result float;
  note_to_hz : string -> result float;
  pyin : list float -> float -> float -> Z ->
         result (list float * list bool * list float);
  spectral_centroid : list float -> Z -> result (list (list float));
  rms : list float -> result (list (list float));
  zero_crossing_rate : list float -> result (list (list float));
  mfcc : list float -> Z -> nat -> result (list (list float));
  np_mean : list float -> float;
  np_std : list float -> float;
  float_repr : float -> string;
  library_stderr : option (list byte) -> load_call -> string
}.

(** Shapes the libraries document for their results: [pyin] returns one
    flag per frequency estimate, [mfcc] returns [n_mfcc] rows, the other
    three features return a single row, and the printed form of a finite
    float has no line feed. *)
Class LibrosaShapes (L : Librosa) : Prop := {
  pyin_shape : forall y fmin fmax sr f0 flags probs,
      pyin y fmin fmax sr = Ok (f0, flags, probs) -> length f0 = length flags;
  spectral_centroid_shape : forall y sr m,
      spectral_centroid y sr = Ok m -> length m = 1;
  rms_shape : forall y m, rms y = Ok m -> length m = 1;
  zero_crossing_rate_shape : forall y m,
      zero_crossing_rate y = Ok m -> length m = 1;
  mfcc_shape : forall y sr n m, mfcc y sr n = Ok m -> length m = n;
  float_repr_line : forall x, has_newline (float_repr x) = false
}.

(* ------------------------------------------------------------------ *)
(** ** numpy indexing used by the script *)

(** [a[mask]] with a boolean mask: the entries whose flag is set, in order. *)
Fixpoint select (a : list float) (mask : list bool) : list float :=
  match a, mask with
  | x :: a', b :: mask' => if b then x :: select a' mask' else select a' mask'
  | _, _ => []
  end.

(** numpy refuses a mask whose length differs from the array's. *)
Definition mask_index (a : list float) (mask : list bool) : result (list float) :=
  if Nat.eqb (length a) (length mask) then Ok (select a mask)
  else Err ("boolean index did not match indexed array along axis 0; size of axis is "
            ++ str_of_nat (length a)
            ++ " but size of corresponding boolean axis is "
            ++ str_of_nat (length mask)).

(** [m[0]]: the first row of a two-dimensional array. *)
Definition row0 (m : list (list float)) : result (list float) :=
  match m with
  | r :: _ => Ok r
  | [] => Err "index 0 is out of bounds for axis 0 with size 0"
  end.

(* ------------------------------------------------------------------ *)
(** ** json.dumps(features, separators=(',', ':')) *)

Section Json.
Context {L : Librosa}.

(** The encoder's float printer: three spellings for the non-finite
    values, [float.__repr__] otherwise. *)
Definition floatstr (x : float) : string :=
  if PrimFloat.is_nan x then "NaN"
  else if PrimFloat.eqb x infinity then "Infinity"
  else if PrimFloat.eqb x neg_infinity then "-Infinity"
  else float_repr x.

Definition json_value (v : pyval) : string :=
  match v with
  | PyFloat x => floatstr x
  | PyList xs => "[" ++ join "," (map floatstr xs) ++ "]"
  end.

(** A key between quotes.  The ten keys of the script are plain
    identifiers, which the encoder copies unchanged. *)
Definition json_key (k : string) : string := dquote ++ k ++ dquote.

Definition json_item (kv : string * pyval) : string :=
  json_key (fst kv) ++ ":" ++ json_value (snd kv).

Definition json_dumps (d : dict) : string :=
  "{" ++ join "," (map json_item d) ++ "}".
End Json.

(* ------------------------------------------------------------------ *)
(** ** The JSON grammar of a number *)

Definition is_digit (c : ascii) : bool :=
  Nat.leb 48 (nat_of_ascii c) && Nat.leb (nat_of_ascii c) 57.

Fixpoint all_digits (s : string) : bool :=
  match s with
  | EmptyString => true
  | String c s' => is_digit c && all_digits s'
  end.

(** What is left of [s] after its leading digits. *)
Fixpoint skip_digits (s : string) : string :=
  match s with
  | EmptyString => EmptyString
  | String c s' => if is_digit c then skip_digits s' else s
  end.

Definition starts_with_digit (s : string) : bool :=
  match s with
  | EmptyString => false
  | String c _ => is_digit c
  end.

Definition is_empty (s : string) : bool :=
  match s with
  | EmptyString => true
  | String _ _ => false
  end.

(** Nothing, or [e] or [E], an optional sign, and one digit or more. *)
Definition json_exponent (s : string) : bool :=
  match s with
  | EmptyString => true
  | String c s' =>
      (Ascii.eqb c "e" || Ascii.eqb c "E")
      && let rest :=
           match s' with
           | String c' t =>
               if Ascii.eqb c' "+" || Ascii.eqb c' "-" then t else s'
           | EmptyString => s'
           end in
         starts_with_digit rest && is_empty (skip_digits rest)
  end.

(** An optional fraction (a point and one digit or more), then the
    exponent. *)
Definition json_fraction (s : string) : bool :=
  match s with
  | String c s' =>
      if Ascii.eqb c "."
      then starts_with_digit s' && json_exponent (skip_digits s')
      else json_exponent s
  | EmptyString => true
  end.

(** The integer part: a lone zero, or a digit other than zero followed by
    digits. *)
Definition json_unsigned (s : string) : bool :=
  match s with
  | EmptyString => false
  | String c s' =>
      if Ascii.eqb c "0" then json_fraction s'
      else is_digit c && json_fraction (skip_digits s')
  end.

(** [json_number s]: the text [s] is a number of RFC 8259. *)
Definition json_number (s : string) : bool :=
  match s with
  | String c s' => if Ascii.eqb c "-" then json_unsigned s' else json_unsigned s
  | EmptyString => false
  end.

(** [float.__repr__] prints a finite float as a decimal number with an
    optional exponent, which is also a number of JSON. *)
Class ReprIsJson (L : Librosa) : Prop := {
  float_repr_json : forall x, finite x = true -> json_number (float_repr x) = true
}.

(* ------------------------------------------------------------------ *)
(** ** The script *)

Section Script.
Context {L : Librosa}.
Variable fs : filesystem.

(** [librosa.load(path, sr=..., duration=...)]: the call is recorded, then
    the decoder is run on what the file system holds under [path].  It is
    the first library call of the script, and the libraries' output on
    standard error is accounted for here: the script itself prints nothing
    there before its handler runs, so what the stream holds when the
    script next writes to it is the same as if every later call had added
    its own part. *)
Definition load (path : string) (sr : option Z) (duration : option float)
  : M (list float * Z) :=
  fun p =>
    let call := LoadCall path sr duration in
    lift (librosa_load (fs path) call)
         (Process (stdout p)
                  (stderr p ++ library_stderr (fs path) call)
                  (loads p ++ [call])%list).

Local Open Scope py_scope.

(** The script calls [librosa.pyin(y, fmin=..., fmax=...)] without [sr]:
    the tracker takes its default rate. *)
Definition pyin_sr : Z := 22050.

(** Body of the [try] block of [extract_features] (source lines 44-95). *)
Definition extract_features_try (file_path : string) : M dict :=
  '(y, sr) <- load file_path None None ;;
  duration <- lift (get_duration y sr) ;;
  (* 1. fundamental frequency *)
  fmin <- lift (note_to_hz "C2") ;;
  fmax <- lift (note_to_hz "C7") ;;
  '(f0, voiced_flag, voiced_probs) <- lift (pyin y fmin fmax pyin_sr) ;;
  f0_voiced <- lift (mask_index f0 voiced_flag) ;;
  let mean_f0 :=
    if Nat.ltb 0 (length f0_voiced) then np_mean f0_voiced else 0%float in
  let std_f0 :=
    if Nat.ltb 0 (length f0_voiced) then np_std f0_voiced else 0%float in
  (* 2. spectral centroid *)
  centroid_2d <- lift (spectral_centroid y sr) ;;
  spectral_centroids <- lift (row0 centroid_2d) ;;
  let mean_spectral_centroid := np_mean spectral_centroids in
  let std_spectral_centroid := np_std spectral_centroids in
  (* 3. RMS energy *)
  rms_2d <- lift (rms y) ;;
  rms_row <- lift (row0 rms_2d) ;;
  let mean_rms_energy := np_mean rms_row in
  let std_rms_energy := np_std rms_row in
  (* 4. zero crossing rate *)
  zcr_2d <- lift (zero_crossing_rate y) ;;
  zcr <- lift (row0 zcr_2d) ;;
  let mean_zcr := np_mean zcr in
  let std_zcr := np_std zcr in
  (* 5. MFCCs *)
  mfccs <- lift (mfcc y sr 13) ;;
  let mfcc_means :=
    map (fun i => np_mean (nth i mfccs [])) (seq 0 (length mfccs)) in
  (* assemble *)
  ret [ ("duration", PyFloat duration);
        ("mean_f0", PyFloat mean_f0);
        ("std_f0", PyFloat std_f0);
        ("mean_spectral_centroid", PyFloat mean_spectral_centroid);
        ("std_spectral_centroid", PyFloat std_spectral_centroid);
        ("mean_rms_energy", PyFloat mean_rms_energy);
        ("std_rms_energy", PyFloat std_rms_energy);
        ("mean_zcr", PyFloat mean_zcr);
        ("std_zcr", PyFloat std_zcr);
        ("mfcc_means", PyList mfcc_means) ].

(** The diagnostic of the [except] clause. *)
Definition error_message (original_filename file_path : string) (e : exn)
  : string :=
  "Error processing file '" ++ original_filename ++ "' (" ++ file_path
    ++ "): " ++ e.

Definition extract_features (file_path original_filename : string) : M dict :=
  try_except (extract_features_try file_path)
    (fun e =>
       print_stderr (error_message original_filename file_path e) ;;;
       sys_exit 1).

Definition usage : string :=
  "Usage: python3 analyze_audio.py <temp_file_path> <original_filename>".

(** [main], with [sys.argv] as its argument. *)
Definition main (argv : list string) : M unit :=
  (if negb (Nat.eqb (length argv) 3)
   then print_stderr usage ;;; sys_exit 1
   else ret tt) ;;;
  let temp_file_path := nth 1 argv EmptyString in
  let original_filename := nth 2 argv EmptyString in
  features <- extract_features temp_file_path original_filename ;;
  print (json_dumps features).

(** The interpreter around [main]: a normal return ends the process with
    status 0, [sys.exit(c)] with status [c], and an exception that nobody
    caught with a traceback on standard error and status 1. *)
Definition python3 (argv : list string) : process * Z :=
  match main argv start with
  | (Ret _, p) => (p, 0%Z)
  | (Exit c, p) => (p, c)
  | (Raise e, p) =>
      (Process (stdout p)
               (stderr p ++ "Traceback (most recent call last):" ++ nl ++ e ++ nl)
               (loads p), 1%Z)
  end.
End Script.

(* ------------------------------------------------------------------ *)
(** ** What the libraries answer on one run *)

(** The values the libraries hand back to the script, in call order. *)
Record answers : Type := Answers {
  a_y : list float;
  a_sr : Z;
  a_duration : float;
  a_fmin : float;
  a_fmax : float;
  a_f0 : list float;
  a_voiced_flag : list bool;
  a_voiced_probs : list float;
  a_centroid : list (list float);
  a_rms : list (list float);
  a_zcr : list (list float);
  a_mfcc : list (list float)
}.

(** [decodes fs path y sr]: the decoder, asked for the native rate and the
    whole file, accepts what [fs] holds under [path]. *)
Definition decodes {L : Librosa} (fs : filesystem) (path : string)
  (y : list float) (sr : Z) : Prop :=
  librosa_load (fs path) (LoadCall path None None) = Ok (y, sr).

(** [answered fs path a]: decoding succeeds and so does every feature call
    the script makes on the decoded waveform, with the results in [a]. *)
Definition answered {L : Librosa} (fs : filesystem) (path : string)
  (a : answers) : Prop :=
  decodes fs path (a_y a) (a_sr a) /\
  get_duration (a_y a) (a_sr a) = Ok (a_duration a) /\
  note_to_hz "C2" = Ok (a_fmin a) /\
  note_to_hz "C7" = Ok (a_fmax a) /\
  pyin (a_y a) (a_fmin a) (a_fmax a) 22050
    = Ok (a_f0 a, a_voiced_flag a, a_voiced_probs a) /\
  spectral_centroid (a_y a) (a_sr a) = Ok (a_centroid a) /\
  rms (a_y a) = Ok (a_rms a) /\
  zero_crossing_rate (a_y a) = Ok (a_zcr a) /\
  mfcc (a_y a) (a_sr a) 13 = Ok (a_mfcc a).

(** The frequency estimates of the voiced frames. *)
Definition voiced (a : answers) : list float :=
  select (a_f0 a) (a_voiced_flag a).

(** First row of a matrix, empty when there is none. *)
Definition first_row (m : list (list float)) : list float := hd [] m.

(** Said with the spec's words: the frequency estimates restricted to the
    frames whose voiced flag is true, in frame order.  Compared with the
    script's [f0[voiced_flag]] in [select_voiced_estimates]. *)
Definition voiced_estimates (f0 : list float) (voiced_flag : list bool)
  : list float :=
  map fst (filter snd (combine f0 voiced_flag)).






(* ------------------------------------------------------------------ *)
(** ** A small library instance

    A stand-in for librosa on a toy audio format, used to run the script on
    concrete files.  A file is one header byte (the sampling rate in kHz)
    followed by unsigned 8-bit samples; analysis frames are pairs of
    neighbouring samples.  As with reflect padding in numpy, the pitch
    tracker refuses an empty waveform. *)
Module Demo.

Local Open Scope float_scope.

Fixpoint float_of_pos (p : positive) : float :=
  match p with
  | xH => 1
  | xO q => 2 * float_of_pos q
  | xI q => 2 * float_of_pos q + 1
  end.

Definition float_of_Z (z : Z) : float :=
  match z with
  | Z0 => 0
  | Zpos p => float_of_pos p
  | Zneg p => - float_of_pos p
  end.

Definition float_of_nat (n : nat) : float := float_of_Z (Z.of_nat n).

Definition sample_of_byte (b : byte) : float :=
  (float_of_nat (Byte.to_nat b) - 128) / 128.

(** Keep the samples that start before [limit] seconds. *)
Fixpoint crop (sr limit t : float) (y : list float) : list float :=
  match y with
  | [] => []
  | x :: y' => if t <? limit then x :: crop sr limit (t + 1 / sr) y' else []
  end.

Definition load (file : option (list byte)) (call : load_call)
  : result (list float * Z) :=
  match file with
  | None =>
      Err ("[Errno 2] No such file or directory: '" ++ lc_path call ++ "'")
  | Some [] => Err "Format not recognised."
  | Some (rate :: data) =>
      let native := (Z.of_nat (Byte.to_nat rate) * 1000)%Z in
      let y := map sample_of_byte data in
      let y := match lc_duration call with
               | None => y
               | Some d => crop (float_of_Z native) d 0 y
               end in
      match lc_sr call with
      | None => Ok (y, native)
      | Some r => if Z.eqb r native then Ok (y, native)
                  else Err "resampling is not available"
      end
  end.

Fixpoint frames (y : list float) : list (float * float) :=
  match y with
  | a :: ((b :: _) as t) => (a, b) :: frames t
  | _ => []
  end.

Definition crossing (f : float * float) : bool :=
  let (a, b) := f in ((a <? 0) && (0 <=? b)) || ((b <? 0) && (0 <=? a)).

Definition sum (l : list float) : float := fold_left add l 0.

Definition mean (l : list float) : float := sum l / float_of_nat (length l).

Definition std (l : list float) : float :=
  let m := mean l in sqrt (mean (map (fun x => (x - m) * (x - m)) l)).

(** C2 is 65.406... Hz and C7 is 2093.004... Hz. *)
Definition note (name : string) : result float :=
  if String.eqb name "C2" then Ok 0x1.05a0250c2b956p+6
  else if String.eqb name "C7" then Ok 0x1.05a0250c2b956p+11
  else Err ("Improper note format: " ++ name).

Definition track (y : list float) (fmin fmax : float) (sr : Z)
  : result (list float * list bool * list float) :=
  match y with
  | [] =>
      Err "can't extend empty axis 0 using modes other than 'constant' or 'empty'"
  | _ =>
      let fr := frames y in
      let estimate f :=
        if crossing f then
          fmin + abs (fst f - snd f) * (float_of_Z sr / 1024)
        else nan in
      Ok (map estimate fr, map crossing fr,
          map (fun f => if crossing f then 1 else 0) fr)
  end.

(** Number of whole units in a non-negative float, up to [fuel]. *)
Fixpoint whole (fuel : nat) (x : float) : nat :=
  match fuel with
  | O => O
  | S k => if 1 <=? x then S (whole k (x - 1)) else O
  end.

(** A decimal printer with one digit after the point. *)
Definition repr (x : float) : string :=
  let a := abs x in
  let n := whole 4096 a in
  let tenths := whole 9 ((a - float_of_nat n) * 10) in
  ((if (x <? 0)%float then "-" else EmptyString)
     ++ str_of_nat n ++ "." ++ str_of_nat tenths)%string.

(** What the stand-in prints: the decoder's fallback notice for a file it
    cannot open, and the short-signal notice of the spectrum routines for a
    waveform shorter than their window. *)
Definition warn (file : option (list byte)) (call : load_call) : string :=
  match file with
  | None =>
      ("UserWarning: PySoundFile failed. Trying audioread instead." ++ nl)%string
  | Some (_ :: _ :: _) =>
      ("UserWarning: n_fft=2048 is too large for input signal" ++ nl)%string
  | Some _ => EmptyString
  end.

#[global] Instance lib : Librosa := {
  librosa_load := load;
  get_duration y sr := Ok (float_of_nat (length y) / float_of_Z sr);
  note_to_hz := note;
  pyin := track;
  spectral_centroid y sr :=
    Ok [map (fun f => abs (fst f - snd f) * (float_of_Z sr / 4)) (frames y)];
  rms y :=
    Ok [map (fun f => sqrt ((fst f * fst f + snd f * snd f) / 2)) (frames y)];
  zero_crossing_rate y :=
    Ok [map (fun f => if crossing f then 0.5 else 0) (frames y)];
  mfcc y sr n :=
    Ok (map (fun k => map (fun f => (fst f + snd f) / float_of_nat (S k))
                          (frames y))
            (seq 0 n));
  np_mean := mean;
  np_std := std;
  float_repr := repr;
  library_stderr := warn
}.

(** Files of the toy format. *)
Definition tone : list byte :=
  [ "008"; "200"; "064"; "224"; "096"; "160" ]%byte.

Definition silence : list byte :=
  [ "008"; "128"; "128"; "128"; "128" ]%byte.

Definition mixed : list byte :=
  [ "008"; "200"; "224"; "064"; "096" ]%byte.

Definition header_only : list byte := [ "008" ]%byte.

Definition disk : filesystem :=
  fun path =>
    if String.eqb path "/tmp/tone" then Some tone
    else if String.eqb path "/tmp/silence" then Some silence
    else if String.eqb path "/tmp/mixed" then Some mixed
    else if String.eqb path "/tmp/empty" then Some header_only
    else None.

(** The same files on another machine, with one more file beside them. *)
Definition other_disk : filesystem :=
  fun path =>
    if String.eqb path "/tmp/unrelated" then Some silence else disk path.

Definition prog : string := "analyze_audio.py".

(** The value of a call that is known to succeed. *)
Definition value {A : Type} (r : result A) (default : A) : A :=
  match r with Ok a => a | Err _ => default end.

(** What [lib] answers when the script analyses [path] on [fs]. *)
Definition answers_on (fs : filesystem) (path : string) : answers :=
  let wave := value (load (fs path) (LoadCall path None None)) ([], 0%Z) in
  let y := fst wave in
  let sr := snd wave in
  let fmin := value (note "C2") 0 in
  let fmax := value (note "C7") 0 in
  let tracked := value (track y fmin fmax 22050) ([], [], []) in
  {| a_y := y;
     a_sr := sr;
     a_duration := value (get_duration y sr) 0;
     a_fmin := fmin;
     a_fmax := fmax;
     a_f0 := fst (fst tracked);
     a_voiced_flag := snd (fst tracked);
     a_voiced_probs := snd tracked;
     a_centroid := value (spectral_centroid y sr) [];
     a_rms := value (rms y) [];
     a_zcr := value (zero_crossing_rate y) [];
     a_mfcc := value (mfcc y sr 13) [] |}.

(** A label that spans two lines. *)
Definition two_line_name : string := ("song" ++ nl ++ ".wav")%string.

End Demo.

(** The state after the [try] block: the decoder was asked for [path] at
    the native rate and full length, and the libraries printed what they
    print for that file. *)
Definition logged {L : Librosa} (fs : filesystem) (path : string)
  (p : process) : process :=
  Process (stdout p)
          (stderr p ++ library_stderr (fs path) (LoadCall path None None))
          (loads p ++ [LoadCall path None None])%list.

(** More files of the toy format, beside those of [Demo.disk]. *)
Module Lab.

(** The samples of [Demo.tone], stored at 16 kHz. *)
Definition tone_16k : list byte :=
  [ "016"; "200"; "064"; "224"; "096"; "160" ]%byte.

(** A single sample: too short to fill one analysis frame. *)
Definition click : list byte := [ "008"; "200" ]%byte.

Definition disk : filesystem :=
  fun path =>
    if String.eqb path "/tmp/tone16" then Some tone_16k
    else if String.eqb path "/tmp/click" then Some click
    else Demo.disk path.

End Lab.

(* ------------------------------------------------------------------ *)
(** * Properties *)

(** ** Text *)

Lemma has_newline_app (a b : string) :
  has_newline (a ++ b) = has_newline a || has_newline b.
Proof.
  induction a as [|c a IH]; simpl; [reflexivity|].
  now rewrite IH, orb_assoc.
Qed.

Lemma count_newlines_app (a b : string) :
  count_newlines (a ++ b) = count_newlines a + count_newlines b.
Proof.
  induction a as [|c a IH]; simpl; [reflexivity|].
  rewrite IH. lia.
Qed.

Lemma count_newlines_none (s : string) :
  has_newline s = false -> count_newlines s = 0.
Proof.
  induction s as [|c s IH]; simpl; [reflexivity|].
  intros H. apply orb_false_iff in H. destruct H as [Hc Hs].
  rewrite Hc. simpl. auto.
Qed.

Lemma single_line_count (s : string) :
  single_line s -> count_newlines s = 1.
Proof.
  intros [l [-> Hl]].
  rewrite count_newlines_app, (count_newlines_none l Hl). reflexivity.
Qed.


Lemma append_assoc (a b c : string) : (a ++ b) ++ c = a ++ (b ++ c).
Proof.
  induction a as [|x a IH]; simpl; [reflexivity|]. now rewrite IH.
Qed.

Lemma append_empty_r (a : string) : a ++ EmptyString = a.
Proof.
  induction a as [|x a IH]; simpl; [reflexivity|]. now rewrite IH.
Qed.

Lemma contains_app_l (x a b : string) : contains x a -> contains x (a ++ b).
Proof.
  intros [pre [post ->]]. exists pre, (post ++ b).
  now rewrite !append_assoc.
Qed.

Lemma contains_app_r (x a b : string) : contains x b -> contains x (a ++ b).
Proof.
  intros [pre [post ->]]. exists (a ++ pre), post.
  now rewrite !append_assoc.
Qed.

Lemma contains_refl (x : string) : contains x x.
Proof.
  exists EmptyString, EmptyString. simpl. now rewrite append_empty_r.
Qed.

(** ** Indexing *)

(** [select] keeps exactly the entries whose flag is set. *)
Lemma select_spec (a : list float) (mask : list bool) (x : float) :
  In x (select a mask) ->
  exists i, nth_error a i = Some x /\ nth_error mask i = Some true.
Proof.
  revert mask. induction a as [|y a IH]; intros [|b mask]; simpl; try tauto.
  destruct b; simpl.
  - intros [<-|H].
    + now exists 0.
    + destruct (IH mask H) as [i Hi]. now exists (S i).
  - intros H. destruct (IH mask H) as [i Hi]. now exists (S i).
Qed.

Lemma select_all_false (a : list float) (mask : list bool) :
  (forall b, In b mask -> b = false) -> select a mask = [].
Proof.
  revert mask. induction a as [|y a IH]; intros [|b mask] H; simpl; auto.
  rewrite (H b (or_introl eq_refl)). apply IH.
  intros c Hc. apply H. now right.
Qed.

Lemma map_nth_seq {A B : Type} (f : A -> B) (d : A) (l : list A) :
  map (fun i => f (nth i l d)) (seq 0 (length l)) = map f l.
Proof.
  induction l as [|x l IH]; simpl; [reflexivity|].
  f_equal. rewrite <- seq_shift, map_map. exact IH.
Qed.

Lemma row0_single (m : list (list float)) :
  length m = 1 -> row0 m = Ok (first_row m).
Proof.
  destruct m as [|r m]; simpl; [discriminate|reflexivity].
Qed.

(** ** JSON text *)

Section JsonFacts.
Context {L : Librosa} {S : LibrosaShapes L}.




End JsonFacts.


(** ** The [try] block *)

(** Case analysis on the library calls of the block, in call order. *)
Ltac next_call :=
  match goal with
  | |- context [match ?r with Ok _ => _ | Err _ => _ end] =>
      destruct r as [?|?] eqn:?; simpl
  | |- context [let (_, _) := ?x in _] => is_var x; destruct x; simpl
  end.

Section TryBlock.
Context {L : Librosa}.
Variable fs : filesystem.

(** The block touches the process state in one way only: it records its
    single [librosa.load] call, and the libraries print what they print.
    Its outcome does not depend on the state it starts from. *)
Lemma extract_features_try_state (path : string) (p : process) :
  extract_features_try fs path p
  = (fst (extract_features_try fs path start), logged fs path p).
Proof.
  unfold extract_features_try, load, bind, lift, ret, logged. simpl.
  repeat next_call; reflexivity.
Qed.

(** The block never calls [sys.exit]. *)
Lemma extract_features_try_no_exit (path : string) (p : process) (c : Z) :
  fst (extract_features_try fs path p) <> Exit c.
Proof.
  unfold extract_features_try, load, bind, lift, ret. simpl.
  repeat next_call; discriminate.
Qed.

(** A decoder exception leaves the block as it is. *)
Lemma extract_features_try_decode_error (path : string) (p : process)
  (e : exn) :
  librosa_load (fs path) (LoadCall path None None) = Err e ->
  extract_features_try fs path p = (Raise e, logged fs path p).
Proof.
  intros H. unfold extract_features_try, load, bind, lift. simpl.
  rewrite H. reflexivity.
Qed.

(** So does an exception of the pitch tracker, after a good decode. *)
Lemma extract_features_try_pyin_error (path : string) (p : process)
  (y : list float) (sr : Z) (d fmin fmax : float) (e : exn) :
  decodes fs path y sr ->
  get_duration y sr = Ok d ->
  note_to_hz "C2" = Ok fmin ->
  note_to_hz "C7" = Ok fmax ->
  pyin y fmin fmax 22050 = Err e ->
  extract_features_try fs path p = (Raise e, logged fs path p).
Proof.
  unfold decodes. intros H1 H2 H3 H4 H5.
  unfold extract_features_try, load, bind, lift, pyin_sr. simpl.
  rewrite H1. simpl. rewrite H2. simpl. rewrite H3. simpl.
  rewrite H4. simpl. rewrite H5. reflexivity.
Qed.

(** When every call is answered, the block returns the dictionary built
    from the answers. *)
Lemma extract_features_try_answered {S : LibrosaShapes L}
  (path : string) (a : answers) (p : process) :
  answered fs path a ->
  extract_features_try fs path p
  = (Ret [ ("duration", PyFloat (a_duration a));
           ("mean_f0",
             PyFloat (if Nat.ltb 0 (length (voiced a))
                      then np_mean (voiced a) else 0%float));
           ("std_f0",
             PyFloat (if Nat.ltb 0 (length (voiced a))
                      then np_std (voiced a) else 0%float));
           ("mean_spectral_centroid",
             PyFloat (np_mean (first_row (a_centroid a))));
           ("std_spectral_centroid",
             PyFloat (np_std (first_row (a_centroid a))));
           ("mean_rms_energy", PyFloat (np_mean (first_row (a_rms a))));
           ("std_rms_energy", PyFloat (np_std (first_row (a_rms a))));
           ("mean_zcr", PyFloat (np_mean (first_row (a_zcr a))));
           ("std_zcr", PyFloat (np_std (first_row (a_zcr a))));
           ("mfcc_means", PyList (map np_mean (a_mfcc a))) ],
     logged fs path p).
Proof.
  intros (Hload & Hdur & Hmin & Hmax & Hpyin & Hcen & Hrms & Hzcr & Hmfcc).
  unfold decodes in Hload.
  unfold extract_features_try, load, bind, lift, ret, pyin_sr. simpl.
  rewrite Hload. simpl. rewrite Hdur. simpl. rewrite Hmin. simpl.
  rewrite Hmax. simpl. rewrite Hpyin. simpl.
  unfold mask_index. rewrite (pyin_shape _ _ _ _ _ _ _ Hpyin), Nat.eqb_refl.
  simpl. rewrite Hcen. simpl.
  rewrite (row0_single _ (spectral_centroid_shape _ _ _ Hcen)). simpl.
  rewrite Hrms. simpl. rewrite (row0_single _ (rms_shape _ _ Hrms)). simpl.
  rewrite Hzcr. simpl.
  rewrite (row0_single _ (zero_crossing_rate_shape _ _ Hzcr)). simpl.
  rewrite Hmfcc. simpl. rewrite map_nth_seq. reflexivity.
Qed.
End TryBlock.

(** ** The handler and [main] *)

Section Program.
Context {L : Librosa}.
Variable fs : filesystem.

(** [extract_features] by the outcome of its [try] block. *)
Lemma extract_features_cases (path name : string) (p : process) :
  extract_features fs path name p
  = match fst (extract_features_try fs path start) with
    | Ret d => (Ret d, logged fs path p)
    | Raise e =>
        (Exit 1,
         Process (stdout p)
                 (stderr (logged fs path p) ++ error_message name path e ++ nl)
                 (loads p ++ [LoadCall path None None])%list)
    | Exit c => (Exit c, logged fs path p)
    end.
Proof.
  unfold extract_features, try_except.
  rewrite extract_features_try_state.
  destruct (fst (extract_features_try fs path start)); reflexivity.
Qed.

(** A run with two arguments, by the outcome of the [try] block.  What the
    libraries printed comes first on standard error. *)
Lemma python3_two_arguments (prog path name : string) :
  python3 fs [prog; path; name]
  = match fst (extract_features_try fs path start) with
    | Ret d =>
        (Process (json_dumps d ++ nl)
                 (library_stderr (fs path) (LoadCall path None None))
                 [LoadCall path None None], 0%Z)
    | Raise e =>
        (Process EmptyString
                 (library_stderr (fs path) (LoadCall path None None)
                    ++ error_message name path e ++ nl)
                 [LoadCall path None None], 1%Z)
    | Exit c => (logged fs path start, c)
    end.
Proof.
  unfold python3, main, bind. simpl.
  rewrite extract_features_cases.
  destruct (fst (extract_features_try fs path start)); reflexivity.
Qed.

(** [main] never lets an exception escape: the interpreter's traceback
    branch is dead. *)
Lemma main_never_raises (argv : list string) (e : exn) :
  fst (main fs argv start) <> Raise e.
Proof.
  unfold main, bind.
  destruct (negb (Nat.eqb (length argv) 3)); simpl; [discriminate|].
  rewrite extract_features_cases.
  destruct (fst (extract_features_try fs _ start)); simpl; discriminate.
Qed.

(** A run that opens no file other than its first argument reads nothing
    else of the file system. *)
Lemma extract_features_try_reads (fs' : filesystem) (path : string)
  (p : process) :
  fs path = fs' path ->
  extract_features_try fs path p = extract_features_try fs' path p.
Proof.
  intros H. unfold extract_features_try, load. rewrite H. reflexivity.
Qed.

(** Any argument vector of the wrong length, the empty one included. *)
Lemma python3_wrong_count (argv : list string) :
  length argv <> 3 ->
  python3 fs argv = (Process EmptyString (usage ++ nl) [], 1%Z).
Proof.
  intros H. unfold python3, main, bind.
  destruct (Nat.eqb (length argv) 3) eqn:E.
  - apply Nat.eqb_eq in E. contradiction.
  - reflexivity.
Qed.
End Program.

(** ** Decimal text and the grammar of numbers *)

Lemma uint_text_line (d : Decimal.uint) :
  has_newline (NilEmpty.string_of_uint d) = false.
Proof.
  induction d as [|d IH|d IH|d IH|d IH|d IH|d IH|d IH|d IH|d IH|d IH];
    simpl; [reflexivity | exact IH ..].
Qed.

Lemma str_of_nat_line (n : nat) : has_newline (str_of_nat n) = false.
Proof.
  unfold str_of_nat, NilZero.string_of_uint.
  destruct (Nat.to_uint n); try reflexivity; apply uint_text_line.
Qed.

Lemma uint_text_digits (d : Decimal.uint) :
  all_digits (NilEmpty.string_of_uint d) = true.
Proof.
  induction d as [|d IH|d IH|d IH|d IH|d IH|d IH|d IH|d IH|d IH|d IH];
    simpl; [reflexivity | exact IH ..].
Qed.

(** The head of a list of digits with its leading zeros removed is no
    zero. *)
Lemma nzhead_head (d : Decimal.uint) :
  match Decimal.nzhead d with
  | Decimal.D0 _ => False
  | _ => True
  end.
Proof.
  induction d as [|d IH|d IH|d IH|d IH|d IH|d IH|d IH|d IH|d IH|d IH];
    simpl; auto.
Qed.

(** The decimal text of a natural number is a lone zero, or a digit other
    than zero followed by digits. *)
Lemma str_of_nat_shape (n : nat) :
  str_of_nat n = "0" \/
  exists c s, str_of_nat n = String c s /\ is_digit c = true /\
              Ascii.eqb c "0" = false /\ all_digits s = true.
Proof.
  unfold str_of_nat.
  assert (Hn : Nat.to_uint n = Decimal.unorm (Nat.to_uint n)).
  { rewrite <- DecimalNat.Unsigned.to_of, DecimalNat.Unsigned.of_to.
    reflexivity. }
  rewrite Hn. unfold Decimal.unorm.
  pose proof (nzhead_head (Nat.to_uint n)) as Hh.
  destruct (Decimal.nzhead (Nat.to_uint n)) as [|u|u|u|u|u|u|u|u|u|u];
    try contradiction.
  - now left.
  - right. eexists _, _. repeat split; try reflexivity. apply uint_text_digits.
  - right. eexists _, _. repeat split; try reflexivity. apply uint_text_digits.
  - right. eexists _, _. repeat split; try reflexivity. apply uint_text_digits.
  - right. eexists _, _. repeat split; try reflexivity. apply uint_text_digits.
  - right. eexists _, _. repeat split; try reflexivity. apply uint_text_digits.
  - right. eexists _, _. repeat split; try reflexivity. apply uint_text_digits.
  - right. eexists _, _. repeat split; try reflexivity. apply uint_text_digits.
  - right. eexists _, _. repeat split; try reflexivity. apply uint_text_digits.
  - right. eexists _, _. repeat split; try reflexivity. apply uint_text_digits.
Qed.

Lemma str_of_nat_digits (n : nat) :
  starts_with_digit (str_of_nat n) = true /\ all_digits (str_of_nat n) = true.
Proof.
  destruct (str_of_nat_shape n) as [->|(c & s & -> & Hc & _ & Hs)].
  - split; reflexivity.
  - simpl. rewrite Hc, Hs. split; reflexivity.
Qed.

Lemma skip_digits_all (s : string) :
  all_digits s = true -> skip_digits s = EmptyString.
Proof.
  induction s as [|c s IH]; simpl; [reflexivity|].
  intros H. apply andb_true_iff in H. destruct H as [Hc Hs].
  rewrite Hc. auto.
Qed.

Lemma skip_digits_app (s r : string) :
  all_digits s = true -> starts_with_digit r = false ->
  skip_digits (s ++ r) = r.
Proof.
  intros Hs Hr. induction s as [|c s IH]; simpl in *.
  - destruct r as [|c r]; simpl in *; [reflexivity|]. now rewrite Hr.
  - apply andb_true_iff in Hs. destruct Hs as [Hc Hs]. rewrite Hc. auto.
Qed.

Lemma digit_is_no_minus (c : ascii) :
  is_digit c = true -> Ascii.eqb c "-" = false.
Proof.
  destruct c as [[] [] [] [] [] [] [] []]; simpl; intros H;
    try reflexivity; discriminate.
Qed.

(** Digits, a point, digits: a number of JSON when the integer part has
    the shape of [str_of_nat]. *)
Lemma decimal_text_is_json (n t : nat) :
  json_unsigned (str_of_nat n ++ "." ++ str_of_nat t) = true.
Proof.
  destruct (str_of_nat_digits t) as [Ht1 Ht2].
  assert (Hfrac : json_fraction ("." ++ str_of_nat t) = true).
  { simpl. rewrite Ht1, (skip_digits_all _ Ht2). reflexivity. }
  destruct (str_of_nat_shape n) as [->|(c & s & -> & Hc & Hz & Hs)].
  - exact Hfrac.
  - change (String c s ++ "." ++ str_of_nat t)
      with (String c (s ++ "." ++ str_of_nat t)).
    unfold json_unsigned. rewrite Hz, Hc.
    rewrite (skip_digits_app s ("." ++ str_of_nat t) Hs eq_refl).
    exact Hfrac.
Qed.

(** ** The library instance keeps the documented shapes *)

Lemma demo_repr_line (x : float) : has_newline (Demo.repr x) = false.
Proof.
  unfold Demo.repr.
  rewrite !has_newline_app, !str_of_nat_line.
  destruct (PrimFloat.ltb x 0); reflexivity.
Qed.

Lemma demo_repr_json (x : float) : json_number (Demo.repr x) = true.
Proof.
  unfold Demo.repr.
  set (n := Demo.whole 4096 (abs x)).
  set (t := Demo.whole 9 _).
  pose proof (decimal_text_is_json n t) as Hbody.
  destruct (PrimFloat.ltb x 0).
  - exact Hbody.
  - change (EmptyString ++ str_of_nat n ++ "." ++ str_of_nat t)
      with (str_of_nat n ++ "." ++ str_of_nat t).
    destruct (str_of_nat_shape n) as [E|(c & s & E & Hc & _ & _)].
    + rewrite E in *. exact Hbody.
    + rewrite E in *.
      change (String c s ++ "." ++ str_of_nat t)
        with (String c (s ++ "." ++ str_of_nat t)) in *.
      unfold json_number. rewrite (digit_is_no_minus c Hc). exact Hbody.
Qed.

#[global] Instance demo_shapes : LibrosaShapes Demo.lib.
Proof.
  constructor; simpl.
  - intros y fmin fmax sr f0 flags probs. unfold Demo.track.
    destruct y; [discriminate|]. intros [= <- <- _].
    now rewrite !length_map.
  - now intros y sr m [= <-].
  - now intros y m [= <-].
  - now intros y m [= <-].
  - intros y sr n m [= <-]. now rewrite length_map, length_seq.
  - exact demo_repr_line.
Qed.

#[global] Instance demo_repr_is_json : ReprIsJson Demo.lib.
Proof. constructor. intros x _. apply demo_repr_json. Qed.

(** ** The voiced frames *)

(** The script's mask selection is the restriction to the voiced frames. *)
Lemma select_voiced_estimates (f0 : list float) (voiced_flag : list bool) :
  select f0 voiced_flag = voiced_estimates f0 voiced_flag.
Proof.
  unfold voiced_estimates. revert voiced_flag.
  induction f0 as [|x f0 IH]; intros [|b flags]; simpl; try reflexivity.
  destruct b; simpl; now rewrite IH.
Qed.

Lemma ltb_length_match {A B : Type} (l : list A) (x y : B) :
  (if Nat.ltb 0 (length l) then x else y)
  = match l with [] => y | _ :: _ => x end.
Proof. destruct l; reflexivity. Qed.

Lemma contains_join (sep s : string) (parts : list string) :
  In s parts -> contains s (join sep parts).
Proof.
  induction parts as [|t rest IH]; [contradiction|].
  intros Hin. destruct rest as [|t' rest'].
  - destruct Hin as [->|[]]. apply contains_refl.
  - change (join sep (t :: t' :: rest'))
      with (t ++ sep ++ join sep (t' :: rest')).
    destruct Hin as [->|Hin].
    + apply contains_app_l, contains_refl.
    + do 2 apply contains_app_r. now apply IH.
Qed.

Lemma lookup_in (k : string) (v : pyval) (d : dict) :
  lookup k d = Some v -> In (k, v) d.
Proof.
  induction d as [|[k' v'] d IH]; simpl; [discriminate|].
  destruct (String.eqb k k') eqn:E.
  - apply String.eqb_eq in E. intros [= ->]. left. now subst.
  - intros H. right. now apply IH.
Qed.

Lemma select_all_true (a : list float) (mask : list bool) :
  length a = length mask ->
  (forall b, In b mask -> b = true) ->
  select a mask = a.
Proof.
  revert mask. induction a as [|x a IH]; intros [|b mask] Hlen Hall;
    simpl in *; try discriminate; [reflexivity|].
  rewrite (Hall b (or_introl eq_refl)). f_equal.
  apply IH; [now injection Hlen|]. intros c Hc. apply Hall. now right.
Qed.


(** ** Runs of the library instance *)

(** A five-sample tone: every frame crosses zero, so every frame is voiced.
    The thirteen means come out in coefficient order. *)
Example demo_tone_features :
  fst (extract_features_try Demo.disk "/tmp/tone" start)
  = Ret [ ("duration", PyFloat 0x1.47ae147ae147bp-11);
          ("mean_f0", PyFloat 0x1.57b88d0c2b956p+6);
          ("std_f0", PyFloat 0x1.7e2d2b5ea6a91p+2);
          ("mean_spectral_centroid", PyFloat 0x1.dc9p+10);
          ("std_spectral_centroid", PyFloat 0x1.1550f517fb8b8p+9);
          ("mean_rms_energy", PyFloat 0x1.fa8316c095f64p-2);
          ("std_rms_energy", PyFloat 0x1.2be74baa593ccp-3);
          ("mean_zcr", PyFloat 0x1p-1);
          ("std_zcr", PyFloat 0x0p+0);
          ("mfcc_means",
            PyList [ 0x1.ap-3; 0x1.ap-4; 0x1.1555555555555p-4; 0x1.ap-5;
                     0x1.4cccccccccccdp-5; 0x1.1555555555555p-5;
                     0x1.db6db6db6db6dp-6; 0x1.ap-6; 0x1.71c71c71c71c7p-6;
                     0x1.4cccccccccccdp-6; 0x1.2e8ba2e8ba2e9p-6;
                     0x1.1555555555555p-6; 0x1p-6 ]%float) ].
Proof. vm_compute. reflexivity. Qed.

(** The run on the tone succeeds, and the short-signal notice of the
    library is on standard error all the same. *)
Example demo_tone_warns :
  snd (python3 Demo.disk [Demo.prog; "/tmp/tone"; "tone.wav"]) = 0%Z /\
  stderr (fst (python3 Demo.disk [Demo.prog; "/tmp/tone"; "tone.wav"]))
  = "UserWarning: n_fft=2048 is too large for input signal" ++ nl.
Proof. split; vm_compute; reflexivity. Qed.

(** One voiced frame between two unvoiced ones: the unvoiced estimates are
    NaN, and only the voiced one reaches [mean_f0]. *)
Example demo_mixed_voicing :
  a_voiced_flag (Demo.answers_on Demo.disk "/tmp/mixed") = [false; true; false]
  /\ map PrimFloat.is_nan (a_f0 (Demo.answers_on Demo.disk "/tmp/mixed"))
     = [true; false; true]
  /\ voiced (Demo.answers_on Demo.disk "/tmp/mixed")
     = [nth 1 (a_f0 (Demo.answers_on Demo.disk "/tmp/mixed")) 0%float]
  /\ lookup "mean_f0"
       match fst (extract_features_try Demo.disk "/tmp/mixed" start) with
       | Ret d => d
       | _ => []
       end
     = Some (PyFloat (nth 1 (a_f0 (Demo.answers_on Demo.disk "/tmp/mixed"))
                          0%float)).
Proof. repeat split; vm_compute; reflexivity. Qed.

(** Silence: no frame is voiced. *)
Example demo_silence_unvoiced :
  voiced (Demo.answers_on Demo.disk "/tmp/silence") = [].
Proof. vm_compute. reflexivity. Qed.

(** A missing file fails in the decoder, a header-only file in the pitch
    tracker. *)
Example demo_missing_raises :
  fst (extract_features_try Demo.disk "/tmp/missing" start)
  = Raise "[Errno 2] No such file or directory: '/tmp/missing'".
Proof. vm_compute. reflexivity. Qed.

Example demo_empty_raises :
  fst (extract_features_try Demo.disk "/tmp/empty" start)
  = Raise "can't extend empty axis 0 using modes other than 'constant' or 'empty'".
Proof. vm_compute. reflexivity. Qed.

(* ------------------------------------------------------------------ *)
(** * The claims *)




(** C2, as stated, fails on the single line, in two ways.  The libraries
    print on standard error too: on a missing file the decoder's fallback
    notice is there before the diagnostic, so the stream holds two lines.
    And the handler prints the label, the path and the error text as they
    are, so a label that holds a line feed adds a line of its own. *)
Lemma c2_stderr_is_not_one_line :
  (fst (extract_features_try Demo.disk "/tmp/missing" start)
   = Raise "[Errno 2] No such file or directory: '/tmp/missing'" /\
   count_newlines
     (stderr (fst (python3 Demo.disk
                     [Demo.prog; "/tmp/missing"; "song.wav"]))) = 2 /\
   ~ single_line
       (stderr (fst (python3 Demo.disk
                       [Demo.prog; "/tmp/missing"; "song.wav"]))))
  /\
  (count_newlines
     (error_message Demo.two_line_name "/tmp/missing"
        "[Errno 2] No such file or directory: '/tmp/missing'" ++ nl) = 2 /\
   ~ single_line
       (error_message Demo.two_line_name "/tmp/missing"
          "[Errno 2] No such file or directory: '/tmp/missing'" ++ nl)).
Proof.
  split; [split; [vm_compute; reflexivity|split]|split].
  - vm_compute. reflexivity.
  - intros H. apply single_line_count in H. vm_compute in H. discriminate.
  - vm_compute. reflexivity.
  - intros H. apply single_line_count in H. vm_compute in H. discriminate.
Qed.

(** C2 (amended): whenever an exception is raised inside the [try] block,
    by the decoder or by any feature computation, the run writes nothing to
    standard output and exits with status 1; standard error holds what the
    libraries printed, followed by one diagnostic message ended by a line
    feed and made of the label, the path and the error text.  The
    diagnostic is the last thing on the stream; it is a single line
    whenever label, path and error text hold no line feed, and it is all
    the stream holds when the libraries printed nothing.  The handler is
    the same for every exception of the block. *)
Theorem c2_failure_diagnostic {L : Librosa}
  (fs : filesystem) (prog path name : string) (e : exn) :
  fst (extract_features_try fs path start) = Raise e ->
  python3 fs [prog; path; name]
  = (Process EmptyString
             (library_stderr (fs path) (LoadCall path None None)
                ++ error_message name path e ++ nl)
             [LoadCall path None None], 1%Z) /\
  contains name (error_message name path e) /\
  contains path (error_message name path e) /\
  contains e (error_message name path e) /\
  (has_newline name = false -> has_newline path = false ->
   has_newline e = false ->
   single_line (error_message name path e ++ nl) /\
   (library_stderr (fs path) (LoadCall path None None) = EmptyString ->
    single_line (stderr (fst (python3 fs [prog; path; name]))))).
Proof.
  intros He. rewrite python3_two_arguments, He.
  split; [reflexivity|]. split; [|split; [|split]].
  - unfold error_message.
    apply contains_app_r, contains_app_l, contains_refl.
  - unfold error_message.
    do 3 apply contains_app_r. apply contains_app_l, contains_refl.
  - unfold error_message.
    do 5 apply contains_app_r. apply contains_refl.
  - intros Hn Hp Hmsg.
    assert (Hline : single_line (error_message name path e ++ nl)).
    { exists (error_message name path e).
      split; [reflexivity|]. unfold error_message.
      rewrite !has_newline_app, Hn, Hp, Hmsg. reflexivity. }
    split; [exact Hline|]. intros Hquiet. cbn [fst stderr].
    rewrite Hquiet. exact Hline.
Qed.

Lemma c2_failure_witness :
  python3 Demo.disk [Demo.prog; "/tmp/missing"; "song.wav"]
  = (Process EmptyString
       (library_stderr (Demo.disk "/tmp/missing")
                       (LoadCall "/tmp/missing" None None)
          ++ error_message "song.wav" "/tmp/missing"
               "[Errno 2] No such file or directory: '/tmp/missing'" ++ nl)
       [LoadCall "/tmp/missing" None None], 1%Z) /\
  python3 Demo.disk [Demo.prog; "/tmp/empty"; "song.wav"]
  = (Process EmptyString
       (library_stderr (Demo.disk "/tmp/empty")
                       (LoadCall "/tmp/empty" None None)
          ++ error_message "song.wav" "/tmp/empty"
               "can't extend empty axis 0 using modes other than 'constant' or 'empty'"
          ++ nl)
       [LoadCall "/tmp/empty" None None], 1%Z).
Proof.
  split.
  - apply (c2_failure_diagnostic Demo.disk Demo.prog "/tmp/missing"
             "song.wav" _).
    vm_compute. reflexivity.
  - apply (c2_failure_diagnostic Demo.disk Demo.prog "/tmp/empty"
             "song.wav" _).
    vm_compute. reflexivity.
Defined.



(** C4: when decoding and the feature calls succeed, [mean_f0] and
    [std_f0] are [np.mean] and [np.std] of the pitch tracker's frequency
    estimates restricted to the frames whose voiced flag is true, in frame
    order; when no frame is voiced both are exactly the float 0.0, which
    is not a NaN, and [extract_features] still returns its dictionary. *)
Theorem c4_f0_statistics {L : Librosa} {S : LibrosaShapes L}
  (fs : filesystem) (path name : string) (a : answers) (p : process) :
  answered fs path a ->
  exists d : dict,
    extract_features fs path name p = (Ret d, logged fs path p) /\
    lookup "mean_f0" d
    = Some (PyFloat
              match voiced_estimates (a_f0 a) (a_voiced_flag a) with
              | [] => 0%float
              | _ :: _ =>
                  np_mean (voiced_estimates (a_f0 a) (a_voiced_flag a))
              end) /\
    lookup "std_f0" d
    = Some (PyFloat
              match voiced_estimates (a_f0 a) (a_voiced_flag a) with
              | [] => 0%float
              | _ :: _ =>
                  np_std (voiced_estimates (a_f0 a) (a_voiced_flag a))
              end) /\
    (voiced_estimates (a_f0 a) (a_voiced_flag a) = [] ->
     lookup "mean_f0" d = Some (PyFloat 0%float) /\
     lookup "std_f0" d = Some (PyFloat 0%float) /\
     PrimFloat.is_nan 0%float = false).
Proof.
  intros Ha.
  pose proof (extract_features_try_answered fs path a start Ha) as Htry.
  eexists. rewrite extract_features_cases, Htry. cbn [fst].
  split; [reflexivity|]. cbn [lookup String.eqb Ascii.eqb Bool.eqb].
  rewrite !ltb_length_match. unfold voiced.
  rewrite select_voiced_estimates.
  split; [reflexivity|]. split; [reflexivity|].
  intros ->. repeat split; reflexivity.
Qed.

(** On the file with one voiced frame among three the statistics are
    taken over that one estimate; on silence they are 0.0. *)
Lemma c4_f0_witness :
  (exists d : dict,
     extract_features Demo.disk "/tmp/mixed" "mixed.wav" start
     = (Ret d, logged Demo.disk "/tmp/mixed" start) /\
     lookup "mean_f0" d
     = Some (PyFloat
               (np_mean [nth 1 (a_f0 (Demo.answers_on Demo.disk "/tmp/mixed"))
                             0%float])) /\
     lookup "std_f0" d
     = Some (PyFloat
               (np_std [nth 1 (a_f0 (Demo.answers_on Demo.disk "/tmp/mixed"))
                            0%float])))
  /\
  (exists d : dict,
     extract_features Demo.disk "/tmp/silence" "silence.wav" start
     = (Ret d, logged Demo.disk "/tmp/silence" start) /\
     lookup "mean_f0" d = Some (PyFloat 0%float) /\
     lookup "std_f0" d = Some (PyFloat 0%float)).
Proof.
  split.
  - destruct (c4_f0_statistics Demo.disk "/tmp/mixed" "mixed.wav"
                (Demo.answers_on Demo.disk "/tmp/mixed") start)
      as [d [Hd [Hm [Hs _]]]].
    + repeat split; vm_compute; reflexivity.
    + exists d. split; [exact Hd|]. split.
      * rewrite Hm. vm_compute. reflexivity.
      * rewrite Hs. vm_compute. reflexivity.
  - destruct (c4_f0_statistics Demo.disk "/tmp/silence" "silence.wav"
                (Demo.answers_on Demo.disk "/tmp/silence") start)
      as [d [Hd [_ [_ Hzero]]]].
    + repeat split; vm_compute; reflexivity.
    + exists d. split; [exact Hd|].
      destruct Hzero as [Hm [Hs _]]; [vm_compute; reflexivity|].
      split; assumption.
Defined.

(** C5: when decoding and the feature calls succeed, the MFCC stage is
    asked for 13 coefficients and returns 13 rows, and [mfcc_means] is the
    list of 13 numbers whose entry [i] is [np.mean] of row [i], that is of
    cepstral coefficient [i] over all frames, coefficient 0 first. *)
Theorem c5_mfcc_means {L : Librosa} {S : LibrosaShapes L}
  (fs : filesystem) (path name : string) (a : answers) (p : process) :
  answered fs path a ->
  mfcc (a_y a) (a_sr a) 13 = Ok (a_mfcc a) /\
  length (a_mfcc a) = 13 /\
  exists (d : dict) (means : list float),
    extract_features fs path name p = (Ret d, logged fs path p) /\
    lookup "mfcc_means" d = Some (PyList means) /\
    length means = 13 /\
    forall i, i < 13 ->
      nth_error means i = Some (np_mean (nth i (a_mfcc a) [])).
Proof.
  intros Ha.
  pose proof (extract_features_try_answered fs path a start Ha) as Htry.
  destruct Ha as (_ & _ & _ & _ & _ & _ & _ & _ & Hmfcc).
  pose proof (mfcc_shape _ _ _ _ Hmfcc) as Hrows.
  split; [exact Hmfcc|]. split; [exact Hrows|].
  eexists. exists (map np_mean (a_mfcc a)).
  rewrite extract_features_cases, Htry. cbn [fst].
  split; [reflexivity|]. split; [reflexivity|].
  split; [now rewrite length_map|].
  intros i Hi. rewrite nth_error_map.
  rewrite (nth_error_nth' (a_mfcc a) []) by lia. reflexivity.
Qed.

Lemma c5_mfcc_witness :
  mfcc (a_y (Demo.answers_on Demo.disk "/tmp/tone"))
       (a_sr (Demo.answers_on Demo.disk "/tmp/tone")) 13
  = Ok (a_mfcc (Demo.answers_on Demo.disk "/tmp/tone")) /\
  length (a_mfcc (Demo.answers_on Demo.disk "/tmp/tone")) = 13 /\
  exists (d : dict) (means : list float),
    extract_features Demo.disk "/tmp/tone" "tone.wav" start
    = (Ret d, logged Demo.disk "/tmp/tone" start) /\
    lookup "mfcc_means" d = Some (PyList means) /\
    length means = 13 /\
    forall i, i < 13 ->
      nth_error means i
      = Some (np_mean (nth i (a_mfcc (Demo.answers_on Demo.disk "/tmp/tone"))
                           [])).
Proof.
  apply (c5_mfcc_means Demo.disk "/tmp/tone" "tone.wav"
           (Demo.answers_on Demo.disk "/tmp/tone") start).
  repeat split; vm_compute; reflexivity.
Defined.

(** C6: when decoding and the feature calls succeed, the spectral-centroid,
    RMS-energy and zero-crossing-rate statistics are [np.mean] and [np.std]
    of the whole row of per-frame values the library returned for that
    measure; the voiced flags take no part in them. *)
Theorem c6_all_frame_statistics {L : Librosa} {S : LibrosaShapes L}
  (fs : filesystem) (path name : string) (a : answers) (p : process) :
  answered fs path a ->
  exists (d : dict) (centroids rms_row zcr : list float),
    a_centroid a = [centroids] /\ a_rms a = [rms_row] /\ a_zcr a = [zcr] /\
    extract_features fs path name p = (Ret d, logged fs path p) /\
    lookup "mean_spectral_centroid" d = Some (PyFloat (np_mean centroids)) /\
    lookup "std_spectral_centroid" d = Some (PyFloat (np_std centroids)) /\
    lookup "mean_rms_energy" d = Some (PyFloat (np_mean rms_row)) /\
    lookup "std_rms_energy" d = Some (PyFloat (np_std rms_row)) /\
    lookup "mean_zcr" d = Some (PyFloat (np_mean zcr)) /\
    lookup "std_zcr" d = Some (PyFloat (np_std zcr)).
Proof.
  intros Ha.
  pose proof (extract_features_try_answered fs path a start Ha) as Htry.
  destruct Ha as (_ & _ & _ & _ & _ & Hcen & Hrms & Hzcr & _).
  apply spectral_centroid_shape in Hcen.
  apply rms_shape in Hrms.
  apply zero_crossing_rate_shape in Hzcr.
  destruct (a_centroid a) as [|c [|? ?]]; try discriminate.
  destruct (a_rms a) as [|r [|? ?]]; try discriminate.
  destruct (a_zcr a) as [|z [|? ?]]; try discriminate.
  eexists. exists c, r, z.
  rewrite extract_features_cases, Htry. cbn [fst].
  repeat split; reflexivity.
Qed.

Lemma c6_all_frame_witness :
  exists (d : dict) (centroids rms_row zcr : list float),
    a_centroid (Demo.answers_on Demo.disk "/tmp/tone") = [centroids] /\
    a_rms (Demo.answers_on Demo.disk "/tmp/tone") = [rms_row] /\
    a_zcr (Demo.answers_on Demo.disk "/tmp/tone") = [zcr] /\
    extract_features Demo.disk "/tmp/tone" "tone.wav" start
    = (Ret d, logged Demo.disk "/tmp/tone" start) /\
    lookup "mean_spectral_centroid" d = Some (PyFloat (np_mean centroids)) /\
    lookup "std_spectral_centroid" d = Some (PyFloat (np_std centroids)) /\
    lookup "mean_rms_energy" d = Some (PyFloat (np_mean rms_row)) /\
    lookup "std_rms_energy" d = Some (PyFloat (np_std rms_row)) /\
    lookup "mean_zcr" d = Some (PyFloat (np_mean zcr)) /\
    lookup "std_zcr" d = Some (PyFloat (np_std zcr)).
Proof.
  apply (c6_all_frame_statistics Demo.disk "/tmp/tone" "tone.wav"
           (Demo.answers_on Demo.disk "/tmp/tone") start).
  repeat split; vm_compute; reflexivity.
Defined.




(** C9: a run with two arguments asks the decoder exactly once, for its
    first argument, with [sr=None] (the native rate, no resampling) and
    [duration=None] (the whole file).  The decoder hands back a list of
    float samples and the rate, and when the feature calls succeed the
    [duration] entry is [get_duration] of exactly that waveform and
    rate. *)
Theorem c9_native_rate_whole_file {L : Librosa} {S : LibrosaShapes L}
  (fs : filesystem) (prog path name : string) (a : answers) :
  answered fs path a ->
  loads (fst (python3 fs [prog; path; name]))
  = [ {| lc_path := path; lc_sr := None; lc_duration := None |} ] /\
  librosa_load (fs path)
    {| lc_path := path; lc_sr := None; lc_duration := None |}
  = Ok (a_y a, a_sr a) /\
  get_duration (a_y a) (a_sr a) = Ok (a_duration a) /\
  exists d : dict,
    extract_features fs path name start = (Ret d, logged fs path start) /\
    lookup "duration" d = Some (PyFloat (a_duration a)).
Proof.
  intros Ha.
  pose proof (extract_features_try_answered fs path a start Ha) as Htry.
  destruct Ha as (Hload & Hdur & _).
  rewrite python3_two_arguments, extract_features_cases, Htry. cbn [fst].
  split; [reflexivity|]. split; [exact Hload|]. split; [exact Hdur|].
  eexists. split; reflexivity.
Qed.

Lemma c9_native_rate_witness :
  loads (fst (python3 Demo.disk [Demo.prog; "/tmp/tone"; "tone.wav"]))
  = [ {| lc_path := "/tmp/tone"; lc_sr := None; lc_duration := None |} ] /\
  librosa_load (Demo.disk "/tmp/tone")
    {| lc_path := "/tmp/tone"; lc_sr := None; lc_duration := None |}
  = Ok (a_y (Demo.answers_on Demo.disk "/tmp/tone"),
        a_sr (Demo.answers_on Demo.disk "/tmp/tone")) /\
  get_duration (a_y (Demo.answers_on Demo.disk "/tmp/tone"))
               (a_sr (Demo.answers_on Demo.disk "/tmp/tone"))
  = Ok (a_duration (Demo.answers_on Demo.disk "/tmp/tone")) /\
  exists d : dict,
    extract_features Demo.disk "/tmp/tone" "tone.wav" start
    = (Ret d, logged Demo.disk "/tmp/tone" start) /\
    lookup "duration" d
    = Some (PyFloat (a_duration (Demo.answers_on Demo.disk "/tmp/tone"))).
Proof.
  apply (c9_native_rate_whole_file Demo.disk Demo.prog "/tmp/tone"
           "tone.wav" (Demo.answers_on Demo.disk "/tmp/tone")).
  repeat split; vm_compute; reflexivity.
Defined.

(** The decoder request of C9 is the same when the run fails. *)
Lemma decoder_request_always (L : Librosa) (fs : filesystem)
  (prog path name : string) :
  loads (fst (python3 fs [prog; path; name]))
  = [ {| lc_path := path; lc_sr := None; lc_duration := None |} ].
Proof.
  rewrite python3_two_arguments.
  destruct (fst (extract_features_try fs path start)); reflexivity.
Qed.

(** C10: for a fixed file system and path, standard output, the exit
    status, the decoder request and the returned features are the same
    whatever label is passed as second argument; the two runs can differ
    only in the diagnostic on standard error, and only when they fail. *)
Theorem c10_label_independence {L : Librosa}
  (fs : filesystem) (prog path name1 name2 : string) :
  stdout (fst (python3 fs [prog; path; name1]))
  = stdout (fst (python3 fs [prog; path; name2])) /\
  snd (python3 fs [prog; path; name1]) = snd (python3 fs [prog; path; name2]) /\
  loads (fst (python3 fs [prog; path; name1]))
  = loads (fst (python3 fs [prog; path; name2])) /\
  (forall d : dict,
     fst (extract_features fs path name1 start) = Ret d <->
     fst (extract_features fs path name2 start) = Ret d) /\
  (snd (python3 fs [prog; path; name1]) = 0%Z ->
   python3 fs [prog; path; name1] = python3 fs [prog; path; name2]).
Proof.
  rewrite !python3_two_arguments, !extract_features_cases.
  destruct (fst (extract_features_try fs path start)) as [d|e|c] eqn:E;
    cbn [fst snd stdout loads]; repeat split; try reflexivity; try tauto;
    try discriminate.
Qed.

(** The label does reach standard error when the run fails. *)
Lemma label_reaches_stderr :
  stderr (fst (python3 Demo.disk [Demo.prog; "/tmp/missing"; "a.wav"]))
  <> stderr (fst (python3 Demo.disk [Demo.prog; "/tmp/missing"; "b.wav"])).
Proof. vm_compute. discriminate. Qed.

(* ------------------------------------------------------------------ *)
(** * Further properties of the script *)

(** X2: standard output tells success from failure.  Whatever the argument
    vector, the exit status is 0 exactly when something was written to
    standard output; a run that ends with another status has written
    nothing there. *)
Theorem status_zero_iff_output {L : Librosa} (fs : filesystem)
  (argv : list string) :
  (snd (python3 fs argv) = 0%Z <->
   stdout (fst (python3 fs argv)) <> EmptyString) /\
  (snd (python3 fs argv) <> 0%Z ->
   stdout (fst (python3 fs argv)) = EmptyString).
Proof.
  destruct (Nat.eq_dec (length argv) 3) as [H3|H3].
  - destruct argv as [|prog [|path [|name [|? ?]]]]; try discriminate.
    rewrite python3_two_arguments.
    destruct (fst (extract_features_try fs path start)) as [d|e|c] eqn:E.
    + cbn [fst snd stdout]. split; [split|].
      * intros _. discriminate.
      * reflexivity.
      * intros H. now elim H.
    + cbn [fst snd stdout]. split; [split|].
      * discriminate.
      * intros H. now elim H.
      * reflexivity.
    + exfalso. exact (extract_features_try_no_exit fs path start c E).
  - rewrite (python3_wrong_count fs argv H3). cbn [fst snd stdout].
    split; [split|].
    + discriminate.
    + intros H. now elim H.
    + reflexivity.
Qed.

(** X3: the pitch tracker is called without the decoded sampling rate.  Two
    files that decode to the same samples therefore get the same [mean_f0]
    and [std_f0], whatever their sampling rates are. *)
Theorem f0_ignores_sample_rate {L : Librosa} {S : LibrosaShapes L}
  (fs1 fs2 : filesystem) (path1 path2 name1 name2 : string)
  (a1 a2 : answers) (p1 p2 : process) :
  answered fs1 path1 a1 ->
  answered fs2 path2 a2 ->
  a_y a1 = a_y a2 ->
  exists d1 d2 : dict,
    extract_features fs1 path1 name1 p1 = (Ret d1, logged fs1 path1 p1) /\
    extract_features fs2 path2 name2 p2 = (Ret d2, logged fs2 path2 p2) /\
    lookup "mean_f0" d1 = lookup "mean_f0" d2 /\
    lookup "std_f0" d1 = lookup "std_f0" d2.
Proof.
  intros H1 H2 Hy.
  pose proof (extract_features_try_answered fs1 path1 a1 start H1) as T1.
  pose proof (extract_features_try_answered fs2 path2 a2 start H2) as T2.
  destruct H1 as (_ & _ & Hmin1 & Hmax1 & Hp1 & _).
  destruct H2 as (_ & _ & Hmin2 & Hmax2 & Hp2 & _).
  assert (Hv : voiced a1 = voiced a2).
  { rewrite Hmin1 in Hmin2. rewrite Hmax1 in Hmax2.
    injection Hmin2 as Hmin. injection Hmax2 as Hmax.
    rewrite Hy, Hmin, Hmax, Hp2 in Hp1. injection Hp1 as Hf Hm _.
    unfold voiced. now rewrite Hf, Hm. }
  do 2 eexists. rewrite !extract_features_cases, T1, T2. cbn [fst].
  split; [reflexivity|]. split; [reflexivity|].
  cbn [lookup String.eqb Ascii.eqb Bool.eqb]. rewrite Hv.
  split; reflexivity.
Qed.

Lemma f0_ignores_sample_rate_witness :
  a_sr (Demo.answers_on Lab.disk "/tmp/tone") = 8000%Z /\
  a_sr (Demo.answers_on Lab.disk "/tmp/tone16") = 16000%Z /\
  exists d1 d2 : dict,
    extract_features Lab.disk "/tmp/tone" "a.wav" start
    = (Ret d1, logged Lab.disk "/tmp/tone" start) /\
    extract_features Lab.disk "/tmp/tone16" "b.wav" start
    = (Ret d2, logged Lab.disk "/tmp/tone16" start) /\
    lookup "mean_f0" d1 = lookup "mean_f0" d2 /\
    lookup "std_f0" d1 = lookup "std_f0" d2.
Proof.
  split; [vm_compute; reflexivity|]. split; [vm_compute; reflexivity|].
  apply (f0_ignores_sample_rate Lab.disk Lab.disk "/tmp/tone" "/tmp/tone16"
           "a.wav" "b.wav" (Demo.answers_on Lab.disk "/tmp/tone")
           (Demo.answers_on Lab.disk "/tmp/tone16") start start).
  - repeat split; vm_compute; reflexivity.
  - repeat split; vm_compute; reflexivity.
  - vm_compute. reflexivity.
Defined.

(** X4: the dictionary is serialised with the encoder's default handling of
    non-finite floats.  When a statistic of a successful run is NaN, the
    run still exits with status 0 and the JSON line carries the bare token
    [NaN] after that key.  Only the F0 statistics are guarded against an
    empty array: the mean of an empty centroid row is printed as numpy
    returns it. *)
Theorem nan_statistic_is_printed {L : Librosa} {S : LibrosaShapes L}
  (fs : filesystem) (prog path name : string) (a : answers) :
  answered fs path a ->
  exists d : dict,
    python3 fs [prog; path; name]
    = (Process (json_dumps d ++ nl)
               (library_stderr (fs path) (LoadCall path None None))
               [LoadCall path None None], 0%Z) /\
    lookup "mean_spectral_centroid" d
    = Some (PyFloat (np_mean (first_row (a_centroid a)))) /\
    forall (k : string) (x : float),
      lookup k d = Some (PyFloat x) ->
      PrimFloat.is_nan x = true ->
      contains (json_key k ++ ":NaN") (json_dumps d ++ nl).
Proof.
  intros Ha.
  pose proof (extract_features_try_answered fs path a start Ha) as Htry.
  match type of Htry with _ = (Ret ?d, _) => set (feats := d) in * end.
  exists feats. rewrite python3_two_arguments, Htry. cbn [fst].
  split; [reflexivity|]. split; [reflexivity|].
  intros k x Hk Hnan. apply contains_app_l.
  unfold json_dumps. apply contains_app_r, contains_app_l.
  apply contains_join. apply in_map_iff.
  exists (k, PyFloat x). split; [|now apply lookup_in].
  unfold json_item, json_value, floatstr. cbn [fst snd]. now rewrite Hnan.
Qed.

Lemma nan_statistic_witness :
  first_row (a_centroid (Demo.answers_on Lab.disk "/tmp/click")) = [] /\
  exists d : dict,
    python3 Lab.disk [Demo.prog; "/tmp/click"; "click.wav"]
    = (Process (json_dumps d ++ nl)
               (library_stderr (Lab.disk "/tmp/click")
                               (LoadCall "/tmp/click" None None))
               [LoadCall "/tmp/click" None None], 0%Z) /\
    contains (json_key "mean_spectral_centroid" ++ ":NaN")
             (json_dumps d ++ nl).
Proof.
  split; [vm_compute; reflexivity|].
  destruct (nan_statistic_is_printed Lab.disk Demo.prog "/tmp/click"
              "click.wav" (Demo.answers_on Lab.disk "/tmp/click"))
    as [d [Hrun [Hc Hnan]]].
  - repeat split; vm_compute; reflexivity.
  - exists d. split; [exact Hrun|].
    apply (Hnan _ _ Hc). vm_compute. reflexivity.
Defined.

(** X5: the array handed to [np.mean] and [np.std] for the F0 statistics
    holds estimates of frames flagged voiced and nothing else.  When the
    tracker's estimate is a number at every voiced frame, no NaN enters the
    F0 statistics, whatever the tracker stores at unvoiced frames. *)
Theorem voiced_filter_keeps_nan_out {L : Librosa} {S : LibrosaShapes L}
  (fs : filesystem) (path name : string) (a : answers) (p : process) :
  answered fs path a ->
  (forall i x, nth_error (a_voiced_flag a) i = Some true ->
               nth_error (a_f0 a) i = Some x ->
               PrimFloat.is_nan x = false) ->
  exists (d : dict) (f0_voiced : list float),
    extract_features fs path name p = (Ret d, logged fs path p) /\
    lookup "mean_f0" d
    = Some (PyFloat match f0_voiced with
                    | [] => 0%float
                    | _ :: _ => np_mean f0_voiced
                    end) /\
    lookup "std_f0" d
    = Some (PyFloat match f0_voiced with
                    | [] => 0%float
                    | _ :: _ => np_std f0_voiced
                    end) /\
    forall x, In x f0_voiced ->
      PrimFloat.is_nan x = false /\
      exists i, nth_error (a_f0 a) i = Some x /\
                nth_error (a_voiced_flag a) i = Some true.
Proof.
  intros Ha Hnum.
  pose proof (extract_features_try_answered fs path a start Ha) as Htry.
  eexists. exists (voiced a).
  rewrite extract_features_cases, Htry. cbn [fst].
  split; [reflexivity|]. cbn [lookup String.eqb Ascii.eqb Bool.eqb].
  rewrite !ltb_length_match.
  split; [reflexivity|]. split; [reflexivity|].
  intros x Hx. apply select_spec in Hx. destruct Hx as [i [Hf Hm]].
  split; [exact (Hnum i x Hm Hf)|]. now exists i.
Qed.

Lemma voiced_filter_witness :
  map PrimFloat.is_nan (a_f0 (Demo.answers_on Demo.disk "/tmp/mixed"))
  = [true; false; true] /\
  exists (d : dict) (f0_voiced : list float),
    extract_features Demo.disk "/tmp/mixed" "mixed.wav" start
    = (Ret d, logged Demo.disk "/tmp/mixed" start) /\
    lookup "mean_f0" d
    = Some (PyFloat match f0_voiced with
                    | [] => 0%float
                    | _ :: _ => np_mean f0_voiced
                    end) /\
    lookup "std_f0" d
    = Some (PyFloat match f0_voiced with
                    | [] => 0%float
                    | _ :: _ => np_std f0_voiced
                    end) /\
    forall x, In x f0_voiced ->
      PrimFloat.is_nan x = false /\
      exists i,
        nth_error (a_f0 (Demo.answers_on Demo.disk "/tmp/mixed")) i = Some x /\
        nth_error (a_voiced_flag (Demo.answers_on Demo.disk "/tmp/mixed")) i
        = Some true.
Proof.
  split; [vm_compute; reflexivity|].
  apply (voiced_filter_keeps_nan_out Demo.disk "/tmp/mixed" "mixed.wav"
           (Demo.answers_on Demo.disk "/tmp/mixed") start).
  - repeat split; vm_compute; reflexivity.
  - intros i x Hflag Hx.
    destruct i as [|[|[|i]]].
    + vm_compute in Hflag. discriminate.
    + vm_compute in Hx. injection Hx as <-. vm_compute. reflexivity.
    + vm_compute in Hflag. discriminate.
    + vm_compute in Hflag. destruct i; discriminate.
Defined.

(** X6: when the tracker flags every frame as voiced (and there is at least
    one frame), the F0 statistics are taken over all its estimates. *)
Theorem all_voiced_uses_every_frame {L : Librosa} {S : LibrosaShapes L}
  (fs : filesystem) (path name : string) (a : answers) (p : process) :
  answered fs path a ->
  (forall b, In b (a_voiced_flag a) -> b = true) ->
  a_f0 a <> [] ->
  exists d : dict,
    extract_features fs path name p = (Ret d, logged fs path p) /\
    lookup "mean_f0" d = Some (PyFloat (np_mean (a_f0 a))) /\
    lookup "std_f0" d = Some (PyFloat (np_std (a_f0 a))).
Proof.
  intros Ha Hall Hne.
  pose proof (extract_features_try_answered fs path a start Ha) as Htry.
  destruct Ha as (_ & _ & _ & _ & Hpyin & _).
  pose proof (pyin_shape _ _ _ _ _ _ _ Hpyin) as Hlen.
  assert (Hv : voiced a = a_f0 a).
  { unfold voiced. now apply select_all_true. }
  eexists. rewrite extract_features_cases, Htry. cbn [fst].
  split; [reflexivity|]. cbn [lookup String.eqb Ascii.eqb Bool.eqb].
  rewrite !ltb_length_match, Hv.
  destruct (a_f0 a); [contradiction|]. split; reflexivity.
Qed.

Lemma all_voiced_witness :
  exists d : dict,
    extract_features Demo.disk "/tmp/tone" "tone.wav" start
    = (Ret d, logged Demo.disk "/tmp/tone" start) /\
    lookup "mean_f0" d
    = Some (PyFloat (np_mean (a_f0 (Demo.answers_on Demo.disk "/tmp/tone")))) /\
    lookup "std_f0" d
    = Some (PyFloat (np_std (a_f0 (Demo.answers_on Demo.disk "/tmp/tone")))).
Proof.
  apply (all_voiced_uses_every_frame Demo.disk "/tmp/tone" "tone.wav"
           (Demo.answers_on Demo.disk "/tmp/tone") start).
  - repeat split; vm_compute; reflexivity.
  - intros b Hb. vm_compute in Hb.
    repeat (destruct Hb as [<-|Hb]; [reflexivity|]). contradiction.
  - vm_compute. discriminate.
Defined.
